(** * anne_profiler: the C interface and its usage example

    The repository's C sources are the header [anne_profiler.h], five
    function prototypes over opaque [void*] handles, and [src/test.c], a
    [main] that calls four of them in a row.  This development embeds both:
    the header as a table of prototypes, [main] as a program over calls to
    the library, executed against an arbitrary implementation of it. *)

From stdpp Require Import gmap strings list fin_maps.

Open Scope Z_scope.

(** ** The header [anne_profiler.h] *)

(** The C types that occur in the header. *)
Inductive ctype : Type :=
| Tvoid
| Tint
| Tchar
| Tptr (t : ctype).

#[global] Instance ctype_eq_dec : EqDecision ctype.
Proof. solve_decision. Defined.

(** A named parameter, as in [void *profiler]. *)
Record param : Type := Param { p_type : ctype; p_name : string }.

#[global] Instance param_eq_dec : EqDecision param.
Proof. solve_decision. Defined.

(** A prototype: return type, name, parameter list. *)
Record prototype : Type :=
  Prototype { fn_ret : ctype; fn_name : string; fn_params : list param }.

#[global] Instance prototype_eq_dec : EqDecision prototype.
Proof. solve_decision. Defined.

(** [anne_profiler.h], line by line. *)
Definition anne_profiler_h : list prototype :=
  [ Prototype (Tptr Tvoid) "profiler_init" [];
    Prototype Tvoid "profiler_deinit" [Param (Tptr Tvoid) "profiler"];
    Prototype (Tptr Tvoid) "profiler_scope_start"
      [Param (Tptr Tvoid) "profiler"; Param (Tptr Tchar) "name"];
    Prototype Tvoid "profiler_scope_end"
      [Param (Tptr Tvoid) "profiler"; Param (Tptr Tvoid) "scope"];
    Prototype Tint "profiler_save"
      [Param (Tptr Tvoid) "profiler"; Param (Tptr Tchar) "path"] ].

(** The prototype the header gives a name, if any. *)
Definition declaration (name : string) : option prototype :=
  List.find (λ d, bool_decide (fn_name d = name)) anne_profiler_h.

(** A signature: the parameters by name and type, and the return type. *)
Definition signature (name : string) : option (list (string * ctype) * ctype) :=
  (λ d, ((λ p, (p_name p, p_type p)) <$> fn_params d, fn_ret d)) <$> declaration name.

(** How the interface uses the C types: [void*] is an opaque handle,
    [char*] a C string, [void] no result, [int] a status. *)
Definition opaque_handle : ctype := Tptr Tvoid.
Definition c_string : ctype := Tptr Tchar.
Definition nothing : ctype := Tvoid.
Definition integer : ctype := Tint.

(** A function whose return type is [int] reports a status to its caller. *)
Definition returns_status (d : prototype) : Prop := fn_ret d = integer.
Definition returns_handle (d : prototype) : Prop := fn_ret d = opaque_handle.
Definition returns_nothing (d : prototype) : Prop := fn_ret d = nothing.

#[global] Instance returns_status_dec d : Decision (returns_status d).
Proof. unfold returns_status. apply _. Defined.
#[global] Instance returns_handle_dec d : Decision (returns_handle d).
Proof. unfold returns_handle. apply _. Defined.
#[global] Instance returns_nothing_dec d : Decision (returns_nothing d).
Proof. unfold returns_nothing. apply _. Defined.

(** ** Programs over the interface *)

(** A [void*] value is an address; [NULL] is address 0. *)
Definition ptr : Type := Z.
Definition NULL : ptr := 0.

(** A call to the library: the function and its actual arguments, in the
    header's order. *)
Inductive call : Type :=
| profiler_init
| profiler_deinit (profiler : ptr)
| profiler_scope_start (profiler : ptr) (name : string)
| profiler_scope_end (profiler : ptr) (scope : ptr)
| profiler_save (profiler : ptr) (path : string).

#[global] Instance call_eq_dec : EqDecision call.
Proof. solve_decision. Defined.

(** The name of the function a call invokes. *)
Definition callee (c : call) : string :=
  match c with
  | profiler_init => "profiler_init"
  | profiler_deinit _ => "profiler_deinit"
  | profiler_scope_start _ _ => "profiler_scope_start"
  | profiler_scope_end _ _ => "profiler_scope_end"
  | profiler_save _ _ => "profiler_save"
  end.

(** What a call hands back to its caller. *)
Definition result (c : call) : Type :=
  match c with
  | profiler_init => ptr
  | profiler_deinit _ => unit
  | profiler_scope_start _ _ => ptr
  | profiler_scope_end _ _ => unit
  | profiler_save _ _ => Z
  end.

(** C values, to log results of any type in one trace. *)
Inductive value : Type :=
| Vptr (p : ptr)
| Vvoid
| Vint (z : Z)
| Vstr (s : string).

#[global] Instance value_eq_dec : EqDecision value.
Proof. solve_decision. Defined.

Definition to_value (c : call) : result c → value :=
  match c with
  | profiler_init => Vptr
  | profiler_deinit _ => λ _, Vvoid
  | profiler_scope_start _ _ => Vptr
  | profiler_scope_end _ _ => λ _, Vvoid
  | profiler_save _ _ => Vint
  end.

(** The actual arguments of a call, as values. *)
Definition arguments (c : call) : list value :=
  match c with
  | profiler_init => []
  | profiler_deinit p => [Vptr p]
  | profiler_scope_start p name => [Vptr p; Vstr name]
  | profiler_scope_end p s => [Vptr p; Vptr s]
  | profiler_save p path => [Vptr p; Vstr path]
  end.

(** The C type a value inhabits. *)
Definition type_of (v : value) : ctype :=
  match v with
  | Vptr _ => Tptr Tvoid
  | Vvoid => Tvoid
  | Vint _ => Tint
  | Vstr _ => Tptr Tchar
  end.

(** A straight-line C function body that only calls the library: it
    returns, or makes a call and goes on with the call's result. *)
Inductive prog (R : Type) : Type :=
| Return (r : R)
| Call (c : call) (k : result c → prog R).
Arguments Return {R} r.
Arguments Call {R} c k.

Fixpoint prog_bind {A B : Type} (t : prog A) (f : A → prog B) : prog B :=
  match t with
  | Return a => f a
  | Call c k => Call c (λ r, prog_bind (k r) f)
  end.

#[global] Instance prog_ret : MRet prog := λ _ r, Return r.
#[global] Instance prog_mbind : MBind prog := λ _ _ f t, prog_bind t f.

(** One call statement. *)
Definition invoke (c : call) : prog (result c) := Call c Return.

(** ** The example [src/test.c] *)

Definition main (argc : Z) (argv : list string) : prog Z :=
  profiler ← invoke profiler_init;
  scope ← invoke (profiler_scope_start profiler "test_scope2");
  invoke (profiler_scope_end profiler scope);;
  invoke (profiler_deinit profiler);;
  mret 0.

(** ** Executing a program against an implementation of the library *)

(** A completed call in a trace: the call and the value it returned. *)
Definition event : Type := call * value.

(** How an execution ends: the program returned [r], or call [c] never
    returned to it (it crashed or did not terminate). *)
Inductive outcome (R St : Type) : Type :=
| Finished (r : R) (s : St)
| Pending (c : call) (s : St).
Arguments Finished {R St} r s.
Arguments Pending {R St} c s.

Section Execution.
Context {St : Type}.

(** An implementation of the library: for each call and state of the
    library, the result and the next state, or [None] when the call does
    not return. *)
Variable impl : ∀ c : call, St → option (result c * St).

Fixpoint run {R : Type} (t : prog R) (s : St) : list event * outcome R St :=
  match t with
  | Return r => ([], Finished r s)
  | Call c k =>
      match impl c s with
      | None => ([], Pending c s)
      | Some (r, s') =>
          let '(tr, o) := run (k r) s' in ((c, to_value c r) :: tr, o)
      end
  end.

(** Every call the program makes returns. *)
Fixpoint all_calls_return {R : Type} (t : prog R) (s : St) : bool :=
  match t with
  | Return _ => true
  | Call c k =>
      match impl c s with
      | None => false
      | Some (r, s') => all_calls_return (k r) s'
      end
  end.

End Execution.

(** The calls an execution made, in order: the completed ones, then the
    one that did not return, if any. *)
Definition calls_made {R St : Type} (e : list event * outcome R St) : list call :=
  e.1.*1 ++ match e.2 with Finished _ _ => [] | Pending c _ => [c] end.

(** How often function [f] is invoked in a list of calls. *)
Definition invocations (f : string) (cs : list call) : nat :=
  length (filter (λ c, callee c = f) cs).

Definition finished {R St : Type} (e : list event * outcome R St) : bool :=
  match e.2 with Finished _ _ => true | Pending _ _ => false end.

Definition returned {R St : Type} (e : list event * outcome R St) : option R :=
  match e.2 with Finished r _ => Some r | Pending _ _ => None end.

(** The complete trace of the example, for the handles [p] and [sc] the
    library returned. *)
Definition example_trace (p sc : ptr) : list event :=
  [ (profiler_init, Vptr p);
    (profiler_scope_start p "test_scope2", Vptr sc);
    (profiler_scope_end p sc, Vvoid);
    (profiler_deinit p, Vvoid) ].

(** An implementation without state that answers [profiler_init] with
    [p], [profiler_scope_start] with [sc] and [profiler_save] with
    [status], whatever the arguments. *)
Definition answering (p sc : ptr) (status : Z) (c : call) (s : unit)
  : option (result c * unit) :=
  match c with
  | profiler_init => Some (p, s)
  | profiler_deinit _ => Some (tt, s)
  | profiler_scope_start _ _ => Some (sc, s)
  | profiler_scope_end _ _ => Some (tt, s)
  | profiler_save _ _ => Some (status, s)
  end.

(** An implementation whose [profiler_scope_end] never returns. *)
Definition hanging_in_scope_end (p sc : ptr) (c : call) (s : unit)
  : option (result c * unit) :=
  match c with
  | profiler_scope_end _ _ => None
  | _ => answering p sc 0 c s
  end.

(** ** What a trace shows of the handles *)

(** The handles a call passes to the library, in argument order. *)
Definition handles_passed (c : call) : list ptr :=
  match c with
  | profiler_init => []
  | profiler_deinit p => [p]
  | profiler_scope_start p _ => [p]
  | profiler_scope_end p sc => [p; sc]
  | profiler_save p _ => [p]
  end.

(** The handles the library returned in the completed calls, in order. *)
Definition handles_returned (tr : list event) : list ptr :=
  omap (λ e, match e.2 with Vptr h => Some h | _ => None end) tr.

(** The handle a call hands back for good: profiler_deinit its profiler,
    profiler_scope_end its scope. *)
Definition handed_back (c : call) : option ptr :=
  match c with
  | profiler_deinit p => Some p
  | profiler_scope_end _ sc => Some sc
  | _ => None
  end.

(** An implementation that counts: every handle it returns is the next
    number, whatever the call. *)
Definition counting (c : call) (n : Z) : option (result c * Z) :=
  match c with
  | profiler_init => Some (n, n + 1)
  | profiler_deinit _ => Some (tt, n)
  | profiler_scope_start _ _ => Some (n, n + 1)
  | profiler_scope_end _ _ => Some (tt, n)
  | profiler_save _ _ => Some (0, n)
  end.

(** ** The library's behaviour, as far as the specification states it *)

(** Modelled from the spec: the bodies of the five functions are not among
    the sources (the header only declares them, the example only calls
    them).  A scope is "associated with a name" and "owned by the profiler
    that created it"; it is "created by profiler_scope_start, closed by
    profiler_scope_end". *)
Record scope_info : Type :=
  Scope { sc_owner : ptr; sc_name : string; sc_open : bool }.

#[global] Instance scope_info_eq_dec : EqDecision scope_info.
Proof. solve_decision. Defined.

(** Modelled from the spec: the state of the absent implementation.  A
    profiler is "created by profiler_init, destroyed by profiler_deinit"
    and "owns zero or more scopes": [live] holds the profilers between the
    two, [scopes] the scopes by handle.  Handles are made from a counter;
    [saved] is what profiler_save wrote, by path. *)
Record library : Type :=
  Library {
    live : gset ptr;
    scopes : gmap ptr scope_info;
    next_handle : ptr;
    saved : gmap string (list (ptr * scope_info))
  }.

(** Modelled from the spec: the state before any call of the absent
    implementation; no profiler, no scope, nothing saved. *)
Definition initial : library := Library ∅ ∅ 1 ∅.

(** Modelled from the spec: the scopes "owned by the profiler that created
    [them]", for the absent implementation's state. *)
Definition owned_by (p : ptr) (s : library) : gmap ptr scope_info :=
  filter (λ hr, sc_owner hr.2 = p) (scopes s).

Section Model.

(** The status profiler_save returns: "error codes are unspecified". *)
Variable save_status : Z.

(** Modelled from the spec: the absent body of profiler_init, "initialize()
    -> opaque profiler handle. No stated failure mode." *)
Definition spec_init (s : library) : option (ptr * library) :=
  let p := next_handle s in
  Some (p, Library ({[p]} ∪ live s) (scopes s) (p + 1) (saved s)).

(** Modelled from the spec: the absent body of profiler_scope_start,
    "opaque scope handle scoped to that profiler and that name. No
    constraint given on name uniqueness, nesting".  [None] where the spec
    states no behaviour: the handle is no profiler within its lifetime. *)
Definition spec_scope_start (p : ptr) (name : string) (s : library)
  : option (ptr * library) :=
  if decide (p ∈ live s) then
    let sc := next_handle s in
    Some (sc, Library (live s) (<[sc := Scope p name true]> (scopes s))
                (sc + 1) (saved s))
  else None.

(** Modelled from the spec: the absent body of profiler_scope_end, "marks
    the scope's end boundary. No stated behavior for ending an
    already-ended scope or a scope from a different profiler" ([None]
    there). *)
Definition spec_scope_end (p sc : ptr) (s : library) : option (unit * library) :=
  if decide (p ∈ live s) then
    match scopes s !! sc with
    | Some (Scope owner name true) =>
        if decide (owner = p) then
          Some (tt, Library (live s) (<[sc := Scope owner name false]> (scopes s))
                      (next_handle s) (saved s))
        else None
    | _ => None
    end
  else None.

(** Modelled from the spec: the absent body of profiler_deinit, "releases
    the profiler and any owned scopes. No stated behavior for in-flight
    (unended) scopes at deinit time" ([None] there). *)
Definition spec_deinit (p : ptr) (s : library) : option (unit * library) :=
  if decide (p ∈ live s ∧ map_Forall (λ _ r, sc_open r = false) (owned_by p s)) then
    Some (tt, Library (live s ∖ {[p]})
                (filter (λ hr, sc_owner hr.2 ≠ p) (scopes s))
                (next_handle s) (saved s))
  else None.

(** Modelled from the spec: the absent body of profiler_save, "integer
    status; presumably writes captured scope data to the given path":
    "some representation of recorded scopes", here the profiler's scope
    records themselves. *)
Definition spec_save (p : ptr) (path : string) (s : library) : option (Z * library) :=
  if decide (p ∈ live s) then
    Some (save_status,
          Library (live s) (scopes s) (next_handle s)
            (<[path := map_to_list (owned_by p s)]> (saved s)))
  else None.

(** Modelled from the spec: the absent implementation as a whole, one
    case per prototype of the header. *)
Definition spec_library (c : call) : library → option (result c * library) :=
  match c with
  | profiler_init => spec_init
  | profiler_deinit p => spec_deinit p
  | profiler_scope_start p name => spec_scope_start p name
  | profiler_scope_end p sc => spec_scope_end p sc
  | profiler_save p path => spec_save p path
  end.

End Model.

(** Modelled from the spec: the states the absent implementation can be
    in.  Handles come from the counter, and "a scope belongs to the
    profiler that started it": its owner is a profiler within its
    lifetime. *)
Definition well_formed (s : library) : Prop :=
  set_Forall (λ p, p < next_handle s) (live s) ∧
  map_Forall (λ h r, h < next_handle s ∧ sc_owner r ∈ live s) (scopes s).

(** Modelled from the spec: the states the absent implementation reaches
    from [initial] through calls that return. *)
Inductive reachable (status : Z) : library → Prop :=
| reach_initial : reachable status initial
| reach_call c s r s' :
    reachable status s →
    spec_library status c s = Some (r, s') →
    reachable status s'.

(** Modelled from the spec: a state of the absent implementation with
    profiler 1 and its open scope 2, named by the example; [initial] after
    profiler_init and profiler_scope_start. *)
Definition one_open_scope : library :=
  Library {[1]} {[2 := Scope 1 "test_scope2" true]} 3 ∅.

(** * Properties *)

(** ** The header *)

Lemma declaration_Some name d :
  declaration name = Some d → d ∈ anne_profiler_h ∧ fn_name d = name.
Proof.
  unfold declaration. intros H.
  apply find_some in H as [Hin Hname].
  apply bool_decide_eq_true in Hname.
  split; [by apply list_elem_of_In | done].
Qed.

Lemma signature_is_Some name :
  is_Some (signature name) ↔ name ∈ fn_name <$> anne_profiler_h.
Proof.
  unfold signature. rewrite fmap_is_Some. split.
  - intros [d Hd]. apply declaration_Some in Hd as [Hin <-].
    by apply list_elem_of_fmap_2.
  - intros Hin. apply list_elem_of_fmap in Hin as (d & -> & Hin).
    unfold declaration.
    destruct (find _ _) as [d'|] eqn:Hfind; [by eexists|].
    exfalso. apply list_elem_of_In in Hin.
    apply (find_none _ _ Hfind) in Hin. by rewrite bool_decide_eq_false in Hin.
Qed.

(** Every call a program can make is a call of a declared function, with
    arguments and result of the declared types. *)
Lemma call_conforms_to_header (c : call) (r : result c) :
  ∃ d, declaration (callee c) = Some d
       ∧ type_of <$> arguments c = p_type <$> fn_params d
       ∧ type_of (to_value c r) = fn_ret d.
Proof. destruct c; eexists; (split; [reflexivity|]); by split. Qed.

(** C1: the public interface is exactly the five functions profiler_init,
    profiler_scope_start, profiler_scope_end, profiler_deinit and
    profiler_save, with these signatures: profiler_init has no parameter
    and returns an opaque handle; profiler_scope_start takes a profiler
    handle and a name and returns an opaque handle; profiler_scope_end takes
    a profiler handle and a scope handle and returns nothing;
    profiler_deinit takes a profiler handle and returns nothing;
    profiler_save takes a profiler handle and a path and returns an int. *)
Theorem public_interface_is_five_functions :
  fn_name <$> anne_profiler_h ≡ₚ
    ["profiler_init"; "profiler_scope_start"; "profiler_scope_end";
     "profiler_deinit"; "profiler_save"]
  ∧ (∀ f, is_Some (signature f) ↔
          f ∈ ["profiler_init"; "profiler_scope_start"; "profiler_scope_end";
               "profiler_deinit"; "profiler_save"])
  ∧ signature "profiler_init" = Some ([], opaque_handle)
  ∧ signature "profiler_scope_start" =
      Some ([("profiler", opaque_handle); ("name", c_string)], opaque_handle)
  ∧ signature "profiler_scope_end" =
      Some ([("profiler", opaque_handle); ("scope", opaque_handle)], nothing)
  ∧ signature "profiler_deinit" = Some ([("profiler", opaque_handle)], nothing)
  ∧ signature "profiler_save" =
      Some ([("profiler", opaque_handle); ("path", c_string)], integer).
Proof.
  assert (Hperm : fn_name <$> anne_profiler_h ≡ₚ
    ["profiler_init"; "profiler_scope_start"; "profiler_scope_end";
     "profiler_deinit"; "profiler_save"]).
  { cbn [anne_profiler_h fmap list_fmap fn_name]. solve_Permutation. }
  split; [exact Hperm|]. split.
  - intros f. rewrite signature_is_Some. by rewrite Hperm.
  - repeat split; reflexivity.
Qed.

(** C2: profiler_save is the only declared function that returns an
    integer status; profiler_init and profiler_scope_start return a handle,
    profiler_deinit and profiler_scope_end return nothing, and there is no
    other function.  So no call but one of profiler_save hands an integer
    back to its caller. *)
Theorem only_profiler_save_returns_a_status :
  fn_name <$> filter returns_status anne_profiler_h = ["profiler_save"]
  ∧ fn_name <$> filter returns_handle anne_profiler_h =
      ["profiler_init"; "profiler_scope_start"]
  ∧ fn_name <$> filter returns_nothing anne_profiler_h =
      ["profiler_deinit"; "profiler_scope_end"]
  ∧ Forall (λ d, returns_status d ∨ returns_handle d ∨ returns_nothing d)
      anne_profiler_h
  ∧ (∀ (c : call) (r : result c),
       type_of (to_value c r) = integer ↔ callee c = "profiler_save").
Proof.
  split; [reflexivity|]. split; [reflexivity|]. split; [reflexivity|]. split.
  - unfold anne_profiler_h, returns_status, returns_handle, returns_nothing.
    repeat apply Forall_cons_2; try apply Forall_nil_2; cbn; auto.
  - intros c r. destruct c; cbn; split; intros H; done.
Qed.

(** ** Executions in general *)

Section ExecutionFacts.
Context {St : Type} (impl : ∀ c : call, St → option (result c * St)).

(** A program runs to completion exactly when every call it makes
    returns. *)
Lemma all_calls_return_finished {R : Type} (t : prog R) (s : St) :
  all_calls_return impl t s = finished (run impl t s).
Proof.
  revert s. induction t as [r|c k IH]; intros s; cbn; [done|].
  destruct (impl c s) as [[r s']|]; [|done].
  rewrite IH. unfold finished. by destruct (run impl (k r) s').
Qed.

(** Running one call statement and then the rest. *)
Lemma run_call {R : Type} (c : call) (k : result c → prog R) (s : St) r s' :
  impl c s = Some (r, s') →
  run impl (Call c k) s =
    ((c, to_value c r) :: (run impl (k r) s').1, (run impl (k r) s').2).
Proof. intros H. cbn. rewrite H. by destruct (run impl (k r) s'). Qed.

Lemma run_call_pending {R : Type} (c : call) (k : result c → prog R) (s : St) :
  impl c s = None → run impl (Call c k) s = ([], Pending c s).
Proof. intros H. cbn. by rewrite H. Qed.

End ExecutionFacts.

(** ** The example *)

Section Example.
Context {St : Type} (impl : ∀ c : call, St → option (result c * St)).
Implicit Types (s : St) (argc : Z) (argv : list string) (p sc : ptr).

(** The body of [main], as the calls it is made of. *)
Lemma main_unfold argc argv :
  main argc argv =
    Call profiler_init (λ p,
    Call (profiler_scope_start p "test_scope2") (λ sc,
    Call (profiler_scope_end p sc) (λ _,
    Call (profiler_deinit p) (λ _, Return 0)))).
Proof. reflexivity. Qed.

(** The four ways an execution of [main] can go: stuck in one of the
    first three calls or in the last, or finished. *)
Lemma main_executions s argc argv :
  let e := run impl (main argc argv) s in
  (e.1 = [] ∧ ∃ s0, e.2 = Pending profiler_init s0)
  ∨ (∃ p s1, impl profiler_init s = Some (p, s1)
       ∧ e.1 = take 1 (example_trace p 0)
       ∧ e.2 = Pending (profiler_scope_start p "test_scope2") s1)
  ∨ (∃ p s1 sc s2, impl profiler_init s = Some (p, s1)
       ∧ impl (profiler_scope_start p "test_scope2") s1 = Some (sc, s2)
       ∧ e.1 = take 2 (example_trace p sc)
       ∧ e.2 = Pending (profiler_scope_end p sc) s2)
  ∨ (∃ p s1 sc s2 s3, impl profiler_init s = Some (p, s1)
       ∧ impl (profiler_scope_start p "test_scope2") s1 = Some (sc, s2)
       ∧ impl (profiler_scope_end p sc) s2 = Some (tt, s3)
       ∧ e.1 = take 3 (example_trace p sc)
       ∧ e.2 = Pending (profiler_deinit p) s3)
  ∨ (∃ p s1 sc s2 s3 s4, impl profiler_init s = Some (p, s1)
       ∧ impl (profiler_scope_start p "test_scope2") s1 = Some (sc, s2)
       ∧ impl (profiler_scope_end p sc) s2 = Some (tt, s3)
       ∧ impl (profiler_deinit p) s3 = Some (tt, s4)
       ∧ e.1 = example_trace p sc
       ∧ e.2 = Finished 0 s4).
Proof.
  rewrite main_unfold. cbn zeta.
  destruct (impl profiler_init s) as [[p s1]|] eqn:H1;
    [rewrite (run_call _ _ _ _ _ _ H1)
    |rewrite (run_call_pending _ _ _ _ H1); left; eauto].
  right.
  destruct (impl (profiler_scope_start p "test_scope2") s1) as [[sc s2]|] eqn:H2;
    [rewrite (run_call _ _ _ _ _ _ H2)
    |rewrite (run_call_pending _ _ _ _ H2); left; by exists p, s1].
  right.
  destruct (impl (profiler_scope_end p sc) s2) as [[[] s3]|] eqn:H3;
    [rewrite (run_call _ _ _ _ _ _ H3)
    |rewrite (run_call_pending _ _ _ _ H3); left; by exists p, s1, sc, s2].
  right.
  destruct (impl (profiler_deinit p) s3) as [[[] s4]|] eqn:H4;
    [rewrite (run_call _ _ _ _ _ _ H4)
    |rewrite (run_call_pending _ _ _ _ H4); left; by exists p, s1, sc, s2, s3].
  right. by exists p, s1, sc, s2, s3, s4.
Qed.

(** An execution in which every call returns is the complete one. *)
Lemma main_finishes s argc argv :
  all_calls_return impl (main argc argv) s = true →
  ∃ p sc s', run impl (main argc argv) s = (example_trace p sc, Finished 0 s').
Proof.
  rewrite all_calls_return_finished. unfold finished. intros Hfin.
  destruct (main_executions s argc argv)
    as [[_ [? He]]|[(?&?&_&_&He)|[(?&?&?&?&_&_&_&He)|[(?&?&?&?&?&_&_&_&_&He)|H]]]];
    try (rewrite He in Hfin; discriminate).
  destruct H as (p & s1 & sc & s2 & s3 & s4 & _ & _ & _ & _ & Htr & Hout).
  exists p, sc, s4. destruct (run impl (main argc argv) s); cbn in *; congruence.
Qed.

(** C4: in every execution of [main] the calls come in the order
    profiler_init, profiler_scope_start, profiler_scope_end,
    profiler_deinit, one after the other's return; the handle [p] that
    profiler_init returned is the profiler argument of the three later
    calls, and the handle [sc] that profiler_scope_start returned is the
    scope argument of profiler_scope_end.  An execution in which a call
    does not return stops at that call, which is the next one in this
    order. *)
Theorem main_calls_in_fixed_order s argc argv :
  ∃ p sc,
    (run impl (main argc argv) s).1 `prefix_of` example_trace p sc
    ∧ match (run impl (main argc argv) s).2 with
      | Finished _ _ => (run impl (main argc argv) s).1 = example_trace p sc
      | Pending c _ =>
          (example_trace p sc).*1 !! length (run impl (main argc argv) s).1
            = Some c
      end.
Proof.
  destruct (main_executions s argc argv)
    as [[Ht [? He]]
       |[(p&?&_&Ht&He)
        |[(p&?&sc&?&_&_&Ht&He)
         |[(p&?&sc&?&?&_&_&_&Ht&He)
          |(p&?&sc&?&?&?&_&_&_&_&Ht&He)]]]];
    rewrite Ht, He.
  - exists 0, 0. split; [apply prefix_nil | reflexivity].
  - exists p, 0. split; [apply prefix_take | reflexivity].
  - exists p, sc. split; [apply prefix_take | reflexivity].
  - exists p, sc. split; [apply prefix_take | reflexivity].
  - exists p, sc. split; reflexivity.
Qed.

(** C5, amended: in every execution of [main] in which each call returns,
    each of profiler_init, profiler_scope_start, profiler_scope_end and
    profiler_deinit is invoked exactly once, and profiler_save is not
    invoked. *)
Theorem main_invokes_four_functions_once s argc argv :
  all_calls_return impl (main argc argv) s = true →
  Forall (λ f, invocations f (calls_made (run impl (main argc argv) s)) = 1%nat)
    ["profiler_init"; "profiler_scope_start"; "profiler_scope_end";
     "profiler_deinit"]
  ∧ invocations "profiler_save" (calls_made (run impl (main argc argv) s)) = 0%nat.
Proof.
  intros Hret. destruct (main_finishes s argc argv Hret) as (p & sc & s' & ->).
  split; [|reflexivity].
  repeat apply Forall_cons_2; try apply Forall_nil_2; reflexivity.
Qed.

(** C8: for all [argc] and [argv], [main] returns 0 on every run in which
    each profiler call it makes returns. *)
Theorem main_returns_0 s argc argv :
  all_calls_return impl (main argc argv) s = true →
  returned (run impl (main argc argv) s) = Some 0.
Proof.
  intros Hret. by destruct (main_finishes s argc argv Hret) as (p & sc & s' & ->).
Qed.

(** C9: [main] never reads [argc] and [argv]: two runs that differ in them
    only (against the same implementation, from the same state of it) make
    the same calls with the same arguments, get the same results and end
    the same way, with the same return value. *)
Theorem main_ignores_arguments s argc argv argc' argv' :
  main argc argv = main argc' argv'
  ∧ run impl (main argc argv) s = run impl (main argc' argv') s
  ∧ calls_made (run impl (main argc argv) s) =
      calls_made (run impl (main argc' argv') s)
  ∧ returned (run impl (main argc argv) s) =
      returned (run impl (main argc' argv') s).
Proof.
  assert (Hmain : main argc argv = main argc' argv') by reflexivity.
  rewrite Hmain. done.
Qed.

(** C10: [main] checks no result.  Whatever [profiler_init] returns, NULL
    included, is the profiler argument of the profiler_scope_start call
    that follows, and of the profiler_scope_end and profiler_deinit calls
    when the execution gets that far; whatever profiler_scope_start
    returns, NULL included, is the scope argument of profiler_scope_end. *)
Theorem main_forwards_handles_unchecked s argc argv p s1 :
  impl profiler_init s = Some (p, s1) →
  calls_made (run impl (main argc argv) s) =
    profiler_init :: profiler_scope_start p "test_scope2" ::
    match impl (profiler_scope_start p "test_scope2") s1 with
    | None => []
    | Some (sc, s2) =>
        profiler_scope_end p sc ::
        match impl (profiler_scope_end p sc) s2 with
        | None => []
        | Some _ => [profiler_deinit p]
        end
    end.
Proof.
  intros H1. rewrite main_unfold, (run_call _ _ _ _ _ _ H1).
  destruct (impl (profiler_scope_start p "test_scope2") s1) as [[sc s2]|] eqn:H2;
    [rewrite (run_call _ _ _ _ _ _ H2) | by rewrite (run_call_pending _ _ _ _ H2)].
  destruct (impl (profiler_scope_end p sc) s2) as [[[] s3]|] eqn:H3;
    [rewrite (run_call _ _ _ _ _ _ H3) | by rewrite (run_call_pending _ _ _ _ H3)].
  destruct (impl (profiler_deinit p) s3) as [[[] s4]|] eqn:H4;
    [by rewrite (run_call _ _ _ _ _ _ H4) | by rewrite (run_call_pending _ _ _ _ H4)].
Qed.

End Example.

(** The claim of C5 as it stands, each of the five declared functions
    invoked exactly once, fails on the execution against an implementation
    whose calls all return: profiler_save is declared and never called. *)
Lemma main_never_invokes_profiler_save :
  all_calls_return (answering 1 2 0) (main 0 []) () = true
  ∧ ¬ Forall (λ d, invocations (fn_name d)
                     (calls_made (run (answering 1 2 0) (main 0 []) ())) = 1%nat)
        anne_profiler_h.
Proof.
  split; [reflexivity|]. intros H.
  rewrite Forall_forall in H.
  specialize (H (Prototype Tint "profiler_save"
                   [Param (Tptr Tvoid) "profiler"; Param (Tptr Tchar) "path"])).
  assert (Hin : Prototype Tint "profiler_save"
                  [Param (Tptr Tvoid) "profiler"; Param (Tptr Tchar) "path"]
                ∈ anne_profiler_h) by (unfold anne_profiler_h; set_solver).
  specialize (H Hin). vm_compute in H. discriminate.
Qed.

Lemma main_invokes_four_functions_once_witness :
  Forall (λ f, invocations f (calls_made (run (answering 1 2 0) (main 0 []) ()))
               = 1%nat)
    ["profiler_init"; "profiler_scope_start"; "profiler_scope_end";
     "profiler_deinit"]
  ∧ invocations "profiler_save"
      (calls_made (run (answering 1 2 0) (main 0 []) ())) = 0%nat.
Proof.
  apply (main_invokes_four_functions_once (answering 1 2 0) () 0 []).
  reflexivity.
Defined.

Lemma main_returns_0_witness :
  all_calls_return (answering 1 2 0) (main 3 ["test"; "-v"; "x"]) () = true
  ∧ returned (run (answering 1 2 0) (main 3 ["test"; "-v"; "x"]) ()) = Some 0.
Proof.
  split; [reflexivity|].
  apply (main_returns_0 (answering 1 2 0) () 3 ["test"; "-v"; "x"]).
  reflexivity.
Defined.

Lemma main_forwards_NULL :
  answering NULL NULL 0 profiler_init () = Some (NULL, ())
  ∧ calls_made (run (answering NULL NULL 0) (main 0 []) ()) =
      [profiler_init; profiler_scope_start NULL "test_scope2";
       profiler_scope_end NULL NULL; profiler_deinit NULL].
Proof.
  split; [reflexivity|].
  apply (main_forwards_handles_unchecked (answering NULL NULL 0) () 0 [] NULL ()).
  reflexivity.
Defined.

(** An execution that stops in the third call: the two completed calls,
    and profiler_scope_end pending with the handles it was given. *)
Example main_stuck_in_scope_end :
  run (hanging_in_scope_end 5 7) (main 0 []) ()
    = (take 2 (example_trace 5 7), Pending (profiler_scope_end 5 7) ())
  ∧ all_calls_return (hanging_in_scope_end 5 7) (main 0 []) () = false
  ∧ returned (run (hanging_in_scope_end 5 7) (main 0 []) ()) = None.
Proof. by repeat split. Qed.

(** ** The specified behaviour of the library *)

(** The example against the specified behaviour, from the initial state:
    profiler 1, scope 2, both released at the end; the counter has moved. *)
Example main_on_spec_library :
  (run (spec_library 0) (main 0 []) initial).1 = example_trace 1 2
  ∧ match (run (spec_library 0) (main 0 []) initial).2 with
    | Finished r s =>
        r = 0 ∧ elements (live s) = [] ∧ map_to_list (scopes s) = []
        ∧ next_handle s = 3
    | Pending _ _ => False
    end.
Proof. by vm_compute. Qed.

(** Outside the stated behaviour: ending a scope twice, and releasing a
    profiler with an open scope. *)
Example unstated_behaviour :
  spec_library 0 (profiler_deinit 1) one_open_scope = None
  ∧ (spec_library 0 (profiler_scope_end 1 2) one_open_scope
       ≫= λ '(_, s), spec_library 0 (profiler_scope_end 1 2) s) = None
  ∧ spec_library 0 (profiler_scope_start 9 "x") one_open_scope = None.
Proof. by vm_compute. Qed.

Section ModelFacts.
Variable status : Z.
Implicit Types (s : library) (p sc h : ptr) (c : call).

Lemma well_formed_initial : well_formed initial.
Proof.
  split.
  - intros p Hp. cbn in Hp. set_solver.
  - apply map_Forall_empty.
Qed.

(** Every call that returns keeps the state well formed. *)
Lemma well_formed_call c s (r : result c) s' :
  well_formed s → spec_library status c s = Some (r, s') → well_formed s'.
Proof.
  intros [Hlive Hscopes] Hcall.
  destruct c as [|p|p name|p sc|p path]; cbn in Hcall.
  - unfold spec_init in Hcall. simplify_eq. split; cbn.
    + intros p [->%elem_of_singleton|Hp%Hlive]%elem_of_union; lia.
    + intros h i Hh. destruct (Hscopes h i Hh). split; [lia | set_solver].
  - unfold spec_deinit in Hcall. case_decide; simplify_eq. split; cbn.
    + intros q [Hq _]%elem_of_difference. by apply Hlive.
    + intros h i [Hh Hne]%map_lookup_filter_Some. cbn in Hne.
      destruct (Hscopes h i Hh). split; [done|].
      apply elem_of_difference. by rewrite elem_of_singleton.
  - unfold spec_scope_start in Hcall. case_decide; simplify_eq. split; cbn.
    + intros q Hq%Hlive. lia.
    + apply map_Forall_insert_2; [split; [lia | done]|].
      intros h i Hh. destruct (Hscopes h i Hh). split; [lia | done].
  - unfold spec_scope_end in Hcall. case_decide; [|done].
    destruct (scopes s !! sc) as [[owner name []]|] eqn:Hsc; try done.
    case_decide; simplify_eq. split; cbn; [done|].
    apply map_Forall_insert_2; [|done].
    exact (Hscopes _ _ Hsc).
  - unfold spec_save in Hcall. case_decide; simplify_eq. by split.
Qed.

Lemma reachable_well_formed s : reachable status s → well_formed s.
Proof.
  induction 1 as [|c s r s' _ IH Hcall];
    [apply well_formed_initial | by eapply well_formed_call].
Qed.

(** A handle the counter has not reached yet names nothing. *)
Lemma next_handle_fresh s :
  well_formed s → (next_handle s ∉ live s) ∧ scopes s !! next_handle s = None.
Proof.
  intros [Hlive Hscopes]. split.
  - intros Hin%Hlive. lia.
  - destruct (scopes s !! next_handle s) as [i|] eqn:Hh; [|done].
    destruct (Hscopes _ _ Hh). lia.
Qed.

(** C3: executing the example's calls (profiler_init, profiler_scope_start
    on the returned profiler, profiler_scope_end on that profiler and the
    returned scope, profiler_deinit on that profiler) against the specified
    behaviour never leaves it, from the initial state or any state reached
    from it: every call returns and [main] runs to completion. *)
Theorem example_runs_to_completion s argc argv :
  reachable status s →
  ∃ s', run (spec_library status) (main argc argv) s
          = (example_trace (next_handle s) (next_handle s + 1), Finished 0 s')
        ∧ reachable status s'.
Proof.
  intros Hreach.
  destruct (next_handle_fresh s (reachable_well_formed s Hreach)) as [Hfresh _].
  destruct (reachable_well_formed s Hreach) as [_ Hscopes].
  set (p := next_handle s) in *. set (name := "test_scope2"%string).
  set (s1 := Library ({[p]} ∪ live s) (scopes s) (p + 1) (saved s)).
  set (s2 := Library (live s1) (<[p + 1 := Scope p name true]> (scopes s1))
               (p + 1 + 1) (saved s1)).
  set (s3 := Library (live s2) (<[p + 1 := Scope p name false]> (scopes s2))
               (next_handle s2) (saved s2)).
  set (s4 := Library (live s3 ∖ {[p]})
               (filter (λ hr, sc_owner hr.2 ≠ p) (scopes s3))
               (next_handle s3) (saved s3)).
  assert (Hlive : p ∈ {[p]} ∪ live s) by (apply elem_of_union_l; by apply elem_of_singleton).
  assert (H1 : spec_library status profiler_init s = Some (p, s1)) by reflexivity.
  assert (H2 : spec_library status (profiler_scope_start p name) s1 = Some (p + 1, s2)).
  { cbn. unfold spec_scope_start. by rewrite decide_True. }
  assert (H3 : spec_library status (profiler_scope_end p (p + 1)) s2 = Some ((), s3)).
  { cbn. unfold spec_scope_end. rewrite decide_True by done.
    cbn. rewrite lookup_insert_eq. by rewrite decide_True. }
  assert (H4 : spec_library status (profiler_deinit p) s3 = Some ((), s4)).
  { cbn. unfold spec_deinit. rewrite decide_True; [done|].
    split; [done|]. intros h i [Hh Hown]%map_lookup_filter_Some.
    cbn in Hh, Hown. rewrite insert_insert_eq in Hh.
    apply lookup_insert_Some in Hh as [[_ <-]|[_ Hh]]; [done|].
    destruct (Hscopes h i Hh) as [_ Hin]. cbn in Hin. by rewrite Hown in Hin. }
  exists s4. split.
  - rewrite main_unfold.
    rewrite (run_call _ _ _ _ _ _ H1), (run_call _ _ _ _ _ _ H2).
    rewrite (run_call _ _ _ _ _ _ H3), (run_call _ _ _ _ _ _ H4).
    reflexivity.
  - eapply reach_call; [|exact H4]. eapply reach_call; [|exact H3].
    eapply reach_call; [|exact H2]. eapply reach_call; [exact Hreach | exact H1].
Qed.

(** C6: given a profiler, profiler_scope_start returns for every name a
    handle of a scope of that profiler and that name, just opened, and
    leaves the other scopes and the profilers as they were.  The name is
    not restricted: it may be the name of another scope, and other scopes
    may be open.  The handle is a new one. *)
Theorem scope_start_returns_scope_of_profiler_and_name s p name :
  p ∈ live s →
  ∃ sc s', spec_library status (profiler_scope_start p name) s = Some (sc, s')
    ∧ scopes s' !! sc = Some (Scope p name true)
    ∧ (∀ h, h ≠ sc → scopes s' !! h = scopes s !! h)
    ∧ live s' = live s
    ∧ (well_formed s → scopes s !! sc = None ∧ sc ∉ live s).
Proof.
  intros Hp. eexists _, _. split.
  { cbn. unfold spec_scope_start. rewrite decide_True by done. reflexivity. }
  cbn. split; [apply lookup_insert_eq|].
  split; [intros h Hne; by apply lookup_insert_ne|].
  split; [done|].
  intros Hwf. destruct (next_handle_fresh s Hwf). by split.
Qed.

(** C7: in every state, each scope belongs to a profiler within its
    lifetime; and every call of the interface that returns keeps each
    scope with its owner and name, or releases it together with its owner
    (profiler_deinit).  A scope comes into being only by the
    profiler_scope_start call that returns its handle, for the profiler and
    name of that call, and open; an open scope is closed only by
    profiler_scope_end on its owner and its handle; a closed scope stays
    closed.  And the two calls do delimit it: a profiler_scope_start that
    returns creates the scope under a handle that named none, open, of
    its profiler and name; a profiler_scope_end that returns was given an
    open scope of its profiler and leaves it closed; and on every open
    scope profiler_scope_end, given its owner, returns and closes it. *)
Theorem scopes_belong_to_their_profiler s :
  reachable status s →
  map_Forall (λ _ i, sc_owner i ∈ live s) (scopes s)
  ∧ (∀ c (r : result c) s', spec_library status c s = Some (r, s') →
      (∀ h i, scopes s !! h = Some i →
         (scopes s' !! h = None ∧ c = profiler_deinit (sc_owner i))
         ∨ (∃ i', scopes s' !! h = Some i'
                  ∧ sc_owner i' = sc_owner i ∧ sc_name i' = sc_name i
                  ∧ (sc_open i = false → sc_open i' = false)))
      ∧ (∀ h i', scopes s !! h = None → scopes s' !! h = Some i' →
           c = profiler_scope_start (sc_owner i') (sc_name i')
           ∧ to_value c r = Vptr h ∧ sc_open i' = true)
      ∧ (∀ h i i', scopes s !! h = Some i → scopes s' !! h = Some i' →
           sc_open i = true → sc_open i' = false →
           c = profiler_scope_end (sc_owner i) h))
  ∧ (∀ p name h s',
       spec_library status (profiler_scope_start p name) s = Some (h, s') →
       scopes s !! h = None ∧ scopes s' !! h = Some (Scope p name true))
  ∧ (∀ p sc s',
       spec_library status (profiler_scope_end p sc) s = Some ((), s') →
       ∃ name, scopes s !! sc = Some (Scope p name true)
               ∧ scopes s' !! sc = Some (Scope p name false))
  ∧ (∀ h i, scopes s !! h = Some i → sc_open i = true →
       ∃ s', spec_library status (profiler_scope_end (sc_owner i) h) s
               = Some ((), s')
             ∧ scopes s' !! h = Some (Scope (sc_owner i) (sc_name i) false)).
Proof.
  intros Hreach. pose proof (reachable_well_formed s Hreach) as Hwf.
  destruct (next_handle_fresh s Hwf) as [_ Hfresh].
  destruct Hwf as [_ Hscopes]. split.
  { intros h i Hh. by destruct (Hscopes h i Hh). }
  split; [|split; [|split]]; cycle 1.
  { intros p name h s' Hcall. cbn in Hcall.
    unfold spec_scope_start in Hcall. case_decide; simplify_eq. cbn.
    split; [done | apply lookup_insert_eq]. }
  { intros p sc s' Hcall. cbn in Hcall.
    unfold spec_scope_end in Hcall. case_decide; [|done].
    destruct (scopes s !! sc) as [[owner name []]|] eqn:Hsc; try done.
    case_decide; simplify_eq. cbn.
    exists name. split; [done | apply lookup_insert_eq]. }
  { intros h [owner name open] Hh Hopen. cbn in Hopen. subst open.
    destruct (Hscopes h _ Hh) as [_ Hlive]. cbn in Hlive.
    eexists. cbn. unfold spec_scope_end.
    rewrite decide_True by done. rewrite Hh. rewrite decide_True by done.
    split; [reflexivity|]. cbn. apply lookup_insert_eq. }
  intros c r s' Hcall.
  destruct c as [|p|p name|p sc|p path]; cbn in Hcall.
  - unfold spec_init in Hcall. simplify_eq. cbn. split; [|split].
    + intros h i Hh. right. by exists i.
    + intros h i' Hnone Hsome. congruence.
    + intros h i i' Hh Hh' Ho Hc. congruence.
  - unfold spec_deinit in Hcall. case_decide; simplify_eq. cbn. split; [|split].
    + intros h i Hh. destruct (decide (sc_owner i = p)) as [<-|Hne].
      * left. split; [|done]. apply map_lookup_filter_None. right.
        intros i' Hi'. cbn. intros Hown. apply Hown. congruence.
      * right. exists i. split; [|done]. by apply map_lookup_filter_Some.
    + intros h i' Hnone [Hsome _]%map_lookup_filter_Some. congruence.
    + intros h i i' Hh [Hh' _]%map_lookup_filter_Some Ho Hc. congruence.
  - unfold spec_scope_start in Hcall. case_decide; simplify_eq. cbn.
    split; [|split].
    + intros h i Hh. right. exists i. split; [|done].
      rewrite lookup_insert_ne; [done|]. intros <-. congruence.
    + intros h i' Hnone [[<- <-]|[_ Hsome]]%lookup_insert_Some; [done|congruence].
    + intros h i i' Hh [[<- <-]|[_ Hh']]%lookup_insert_Some Ho Hc; congruence.
  - unfold spec_scope_end in Hcall. case_decide; [|done].
    destruct (scopes s !! sc) as [[owner name []]|] eqn:Hsc; try done.
    case_decide; simplify_eq. cbn. split; [|split].
    + intros h i Hh. right. destruct (decide (h = sc)) as [->|Hne].
      * rewrite Hsc in Hh. simplify_eq. eexists. by rewrite lookup_insert_eq.
      * exists i. by rewrite lookup_insert_ne.
    + intros h i' Hnone [[<- <-]|[_ Hsome]]%lookup_insert_Some; congruence.
    + intros h i i' Hh [[<- <-]|[_ Hh']]%lookup_insert_Some Ho Hc.
      * rewrite Hsc in Hh. by simplify_eq.
      * congruence.
  - unfold spec_save in Hcall. case_decide; simplify_eq. cbn. split; [|split].
    + intros h i Hh. right. by exists i.
    + intros h i' Hnone Hsome. congruence.
    + intros h i i' Hh Hh' Ho Hc. congruence.
Qed.

End ModelFacts.

Lemma reachable_one_open_scope : reachable 0 one_open_scope.
Proof.
  apply (reach_call 0 (profiler_scope_start 1 "test_scope2")
           (Library {[1]} ∅ 2 ∅) 2); [|by vm_compute].
  apply (reach_call 0 profiler_init initial 1); [|by vm_compute].
  apply reach_initial.
Qed.

Lemma example_runs_to_completion_witness :
  ∃ s', run (spec_library 0) (main 0 []) initial
          = (example_trace 1 2, Finished 0 s')
        ∧ reachable 0 s'.
Proof.
  apply (example_runs_to_completion 0 initial 0 []). apply reach_initial.
Defined.

Lemma scope_start_nested_same_name_witness :
  1 ∈ live one_open_scope
  ∧ ∃ sc s', spec_library 0 (profiler_scope_start 1 "test_scope2") one_open_scope
               = Some (sc, s')
    ∧ scopes s' !! sc = Some (Scope 1 "test_scope2" true)
    ∧ (∀ h, h ≠ sc → scopes s' !! h = scopes one_open_scope !! h)
    ∧ live s' = live one_open_scope
    ∧ (well_formed one_open_scope →
       scopes one_open_scope !! sc = None ∧ sc ∉ live one_open_scope).
Proof.
  assert (H : 1 ∈ live one_open_scope) by (vm_compute; reflexivity).
  split; [exact H|].
  exact (scope_start_returns_scope_of_profiler_and_name 0 one_open_scope 1
           "test_scope2" H).
Defined.

Lemma scopes_belong_to_their_profiler_witness :
  reachable 0 one_open_scope
  ∧ map_Forall (λ _ i, sc_owner i ∈ live one_open_scope) (scopes one_open_scope)
  ∧ (∀ c (r : result c) s', spec_library 0 c one_open_scope = Some (r, s') →
      (∀ h i, scopes one_open_scope !! h = Some i →
         (scopes s' !! h = None ∧ c = profiler_deinit (sc_owner i))
         ∨ (∃ i', scopes s' !! h = Some i'
                  ∧ sc_owner i' = sc_owner i ∧ sc_name i' = sc_name i
                  ∧ (sc_open i = false → sc_open i' = false)))
      ∧ (∀ h i', scopes one_open_scope !! h = None → scopes s' !! h = Some i' →
           c = profiler_scope_start (sc_owner i') (sc_name i')
           ∧ to_value c r = Vptr h ∧ sc_open i' = true)
      ∧ (∀ h i i', scopes one_open_scope !! h = Some i →
           scopes s' !! h = Some i' →
           sc_open i = true → sc_open i' = false →
           c = profiler_scope_end (sc_owner i) h))
  ∧ (∀ p name h s',
       spec_library 0 (profiler_scope_start p name) one_open_scope = Some (h, s') →
       scopes one_open_scope !! h = None
       ∧ scopes s' !! h = Some (Scope p name true))
  ∧ (∀ p sc s',
       spec_library 0 (profiler_scope_end p sc) one_open_scope = Some ((), s') →
       ∃ name, scopes one_open_scope !! sc = Some (Scope p name true)
               ∧ scopes s' !! sc = Some (Scope p name false))
  ∧ (∀ h i, scopes one_open_scope !! h = Some i → sc_open i = true →
       ∃ s', spec_library 0 (profiler_scope_end (sc_owner i) h) one_open_scope
               = Some ((), s')
             ∧ scopes s' !! h = Some (Scope (sc_owner i) (sc_name i) false)).
Proof.
  split; [exact reachable_one_open_scope|].
  exact (scopes_belong_to_their_profiler 0 one_open_scope reachable_one_open_scope).
Defined.

(** ** How the example uses the handles *)

Section ExampleHandles.
Context {St : Type} (impl : ∀ c : call, St → option (result c * St)).
Implicit Types (s : St) (argc : Z) (argv : list string) (p sc h : ptr).

(** Every execution of [main] is the complete one cut after [n] completed
    calls; a cut before the end leaves the next call pending. *)
Lemma main_shape s argc argv :
  ∃ p sc (n : nat),
    (n ≤ 4)%nat
    ∧ (run impl (main argc argv) s).1 = take n (example_trace p sc)
    ∧ calls_made (run impl (main argc argv) s)
        = take (S n) (example_trace p sc).*1
    ∧ finished (run impl (main argc argv) s) = bool_decide (n = 4%nat).
Proof.
  unfold calls_made, finished.
  destruct (main_executions impl s argc argv)
    as [[Ht [? He]]
       |[(p&?&_&Ht&He)
        |[(p&?&sc&?&_&_&Ht&He)
         |[(p&?&sc&?&?&_&_&_&Ht&He)
          |(p&?&sc&?&?&?&_&_&_&_&Ht&He)]]]];
    rewrite Ht, He.
  - exists 0, 0, 0%nat. repeat split; first [lia | reflexivity].
  - exists p, 0, 1%nat. repeat split; first [lia | reflexivity].
  - exists p, sc, 2%nat. repeat split; first [lia | reflexivity].
  - exists p, sc, 3%nat. repeat split; first [lia | reflexivity].
  - exists p, sc, 4%nat. repeat split; first [lia | reflexivity].
Qed.

(** X1: [main] forges no handle.  In every execution, against every
    implementation, each handle a call passes to the library was returned
    by the library in an earlier, completed call of that execution. *)
Theorem main_passes_only_returned_handles s argc argv (i : nat) c h :
  calls_made (run impl (main argc argv) s) !! i = Some c →
  h ∈ handles_passed c →
  h ∈ handles_returned (take i (run impl (main argc argv) s).1).
Proof.
  destruct (main_shape s argc argv) as (p & sc & n & Hn & -> & -> & _).
  intros Hc Hh.
  destruct n as [|[|[|[|[|n]]]]]; [..|lia];
    destruct i as [|[|[|[|i]]]]; simplify_eq/=;
    repeat (apply elem_of_cons in Hh as [->|Hh]);
    try (by apply elem_of_nil in Hh); repeat constructor.
Qed.

(** X2: [main] makes no call after profiler_deinit.  In every execution, a
    call of profiler_deinit is the fourth and last call made, and its
    argument is the handle that profiler_init returned in the first. *)
Theorem main_calls_nothing_after_deinit s argc argv (i : nat) p :
  calls_made (run impl (main argc argv) s) !! i = Some (profiler_deinit p) →
  i = 3%nat
  ∧ length (calls_made (run impl (main argc argv) s)) = 4%nat
  ∧ (run impl (main argc argv) s).1 !! 0%nat = Some (profiler_init, Vptr p).
Proof.
  destruct (main_shape s argc argv) as (p' & sc & n & Hn & -> & -> & _).
  intros Hc.
  destruct n as [|[|[|[|[|n]]]]]; [..|lia];
    destruct i as [|[|[|[|i]]]]; by simplify_eq/=.
Qed.

(** X3: [main] hands the handles back last returned first.  At every point
    of every execution the handles handed back so far (the scope to
    profiler_scope_end, the profiler to profiler_deinit) are the first of
    the returned handles in reverse order; in an execution in which every
    call returns, they are all of them: each handle is handed back as often
    as the library returned it. *)
Theorem main_hands_back_in_reverse s argc argv :
  omap handed_back (calls_made (run impl (main argc argv) s))
    `prefix_of` reverse (handles_returned (run impl (main argc argv) s).1)
  ∧ (all_calls_return impl (main argc argv) s = true →
     omap handed_back (calls_made (run impl (main argc argv) s))
       = reverse (handles_returned (run impl (main argc argv) s).1)).
Proof.
  rewrite all_calls_return_finished.
  destruct (main_shape s argc argv) as (p & sc & n & Hn & -> & -> & ->).
  destruct n as [|[|[|[|[|n]]]]]; [..|lia]; cbn; (split; [|by intros ?]).
  - apply prefix_nil.
  - apply prefix_nil.
  - by exists [p].
  - done.
  - done.
Qed.

(** X4: in every execution of [main], also one in which a call does not
    return, at most four calls are made, no function is called twice, and
    profiler_save is not called. *)
Theorem main_never_repeats_a_call s argc argv :
  (length (calls_made (run impl (main argc argv) s)) ≤ 4)%nat
  ∧ (∀ f, (invocations f (calls_made (run impl (main argc argv) s)) ≤ 1)%nat)
  ∧ invocations "profiler_save" (calls_made (run impl (main argc argv) s)) = 0%nat.
Proof.
  destruct (main_shape s argc argv) as (p & sc & n & Hn & _ & -> & _).
  destruct n as [|[|[|[|[|n]]]]]; [..|lia];
    (split; [cbn; lia|]); (split; [|reflexivity]);
    intros f; unfold invocations; cbn;
    repeat case_decide; simplify_eq/=; lia.
Qed.

End ExampleHandles.

Lemma main_passes_only_returned_handles_witness :
  calls_made (run counting (main 0 []) 10) !! 2%nat = Some (profiler_scope_end 10 11)
  ∧ 11 ∈ handles_passed (profiler_scope_end 10 11)
  ∧ 11 ∈ handles_returned (take 2 (run counting (main 0 []) 10).1).
Proof.
  assert (H1 : calls_made (run counting (main 0 []) 10) !! 2%nat
               = Some (profiler_scope_end 10 11)) by reflexivity.
  assert (H2 : 11 ∈ handles_passed (profiler_scope_end 10 11))
    by (cbn; repeat constructor).
  split; [exact H1|]. split; [exact H2|].
  exact (main_passes_only_returned_handles counting 10 0 [] 2
           (profiler_scope_end 10 11) 11 H1 H2).
Defined.

Lemma main_calls_nothing_after_deinit_witness :
  calls_made (run counting (main 0 []) 10) !! 3%nat = Some (profiler_deinit 10)
  ∧ 3%nat = 3%nat
  ∧ length (calls_made (run counting (main 0 []) 10)) = 4%nat
  ∧ (run counting (main 0 []) 10).1 !! 0%nat = Some (profiler_init, Vptr 10).
Proof.
  split; [reflexivity|].
  apply (main_calls_nothing_after_deinit counting 10 0 [] 3 10). reflexivity.
Defined.
